(** * validate_architecture.py: a shallow embedding and its contract

    The program reads a JSON or YAML description of a multi-agent
    architecture, flattens it to text, looks for dysfunction keywords,
    counts stages and agents, and reports findings with an exit status.

    Conventions of the embedding:
    - Python [str] is [string]; [str.lower] is given on the ASCII range,
      where it maps 'A'..'Z' to 'a'..'z' and leaves every other character.
    - A parsed document is a [value]: atoms (None, bool, int, str, and any
      other scalar the YAML loader may build, known only by its [str()]
      form), lists, and dicts with their items in insertion order.
    - [print] appends one entry to the standard output; [sys.exit] and
      every other exception end the computation with [Raise]. *)

From Stdlib Require Import String Ascii List ZArith Arith Bool Lia.
From Stdlib Require Import DecimalString.
Import ListNotations.
Local Open Scope string_scope.
Local Open Scope list_scope.

(** ** Python built-ins the program uses *)

Module Py.

(** [c.lower()] for one character of the ASCII range. *)
Definition lower_char (c : ascii) : ascii :=
  let n := nat_of_ascii c in
  if (65 <=? n)%nat && (n <=? 90)%nat then ascii_of_nat (n + 32) else c.

(** [s.lower()] *)
Fixpoint lower (s : string) : string :=
  match s with
  | EmptyString => EmptyString
  | String c rest => String (lower_char c) (lower rest)
  end.

(** [text.startswith(sub)] *)
Fixpoint startswith (text sub : string) {struct sub} : bool :=
  match sub with
  | EmptyString => true
  | String c sub' =>
      match text with
      | EmptyString => false
      | String d text' => Ascii.eqb c d && startswith text' sub'
      end
  end.

(** [sub in text] on strings: [sub] starts at some position of [text]. *)
Fixpoint str_in (sub text : string) : bool :=
  startswith text sub ||
  match text with
  | EmptyString => false
  | String _ text' => str_in sub text'
  end.

(** [sep.join(parts)] *)
Definition join (sep : string) (parts : list string) : string :=
  String.concat sep parts.

(** [str(n)] for a non-negative [int] such as a [len]. *)
Definition str_of_nat (n : nat) : string :=
  NilZero.string_of_uint (Nat.to_uint n).

(** [str(z)] for an [int]. *)
Definition str_of_int (z : Z) : string :=
  NilZero.string_of_int (Z.to_int z).

(** The line feed written [\n] in the source. *)
Definition LF : string := String "010"%char EmptyString.

End Py.

(** ** Documents *)

(** Scalars: hashable, so they may also be keys of a dict. [AOther] stands
    for the scalars that only a YAML loader builds (float, date, bytes, ...);
    the program never looks at them except through [str()]. *)
Inductive atom : Type :=
| ANone
| ABool (b : bool)
| AInt (z : Z)
| AStr (s : string)
| AOther (repr : string).

#[warnings="-register-all"]
Inductive value : Type :=
| Atom (a : atom)
| List (elems : list value)
| Dict (items : list (atom * value)).

(** [str(a)] *)
Definition str (a : atom) : string :=
  match a with
  | ANone => "None"
  | ABool true => "True"
  | ABool false => "False"
  | AInt z => Py.str_of_int z
  | AStr s => s
  | AOther repr => repr
  end.

(** ** Exceptions and the two effect layers *)

Inductive exn : Type :=
| SystemExit (code : Z)
| JSONDecodeError
| YAMLError
| ValueError (msg : string)
| AttributeError
| IsADirectoryError.

Inductive outcome (A : Type) : Type :=
| Return (a : A)
| Raise (e : exn).
Arguments Return {A} a.
Arguments Raise {A} e.

(** Code that may raise but prints nothing. *)
Definition obind {A B} (m : outcome A) (k : A -> outcome B) : outcome B :=
  match m with
  | Return a => k a
  | Raise e => Raise e
  end.

(** Code that prints: the lines written so far, and how it ended. *)
Definition io (A : Type) : Type := (list string * outcome A)%type.

Definition io_ret {A} (a : A) : io A := ([], Return a).

Definition io_bind {A B} (m : io A) (k : A -> io B) : io B :=
  match m with
  | (out, Return a) => let (out', r) := k a in (out ++ out', r)
  | (out, Raise e) => (out, Raise e)
  end.

Definition print (line : string) : io unit := ([line], Return tt).
Definition sys_exit {A} (code : Z) : io A := ([], Raise (SystemExit code)).
Definition lift {A} (m : outcome A) : io A := ([], m).

Declare Scope py_scope.
Delimit Scope py_scope with py.
Notation "x <- m ;; k" := (obind m (fun x => k))
  (at level 61, m at next level, right associativity) : py_scope.
Notation "x <~ m ;; k" := (io_bind m (fun x => k))
  (at level 61, m at next level, right associativity) : py_scope.
Notation "m ;;; k" := (io_bind m (fun _ => k))
  (at level 61, right associativity) : py_scope.
Local Open Scope py_scope.

(** What the interpreter hands to the operating system: the code of a
    [SystemExit]; 1 for any other uncaught exception, which the interpreter
    itself reports as a traceback on the standard error; 0 on normal
    return. *)
Definition exit_status {A} (r : io A) : Z :=
  match snd r with
  | Return _ => 0
  | Raise (SystemExit code) => code
  | Raise _ => 1
  end.

Definition stdout {A} (r : io A) : list string := fst r.

(** ** The pattern registry *)

Record pattern_def : Type := {
  keywords : list string;
  severity : string;
  description : string;
  fix_ : string
}.

(** [DYSFUNCTION_PATTERNS], in the order the dict literal lists it. *)
Definition DYSFUNCTION_PATTERNS : list (string * pattern_def) := [
  ("review_chain",
   {| keywords := ["reviewer"; "review_agent"; "code_review"; "approval_gate";
                   "quality_check"; "evaluator"; "assessor"; "judge_agent"];
      severity := "HIGH";
      description := "Subjective review agents create Crawford-Sobel degradation";
      fix_ := "Replace with mechanical test verification against contracts" |});
  ("escalation_hierarchy",
   {| keywords := ["escalate"; "arbiter"; "escalation"; "override";
                   "force_approve"; "supervisor"; "manager_agent"];
      severity := "HIGH";
      description := "Escalation hierarchies recreate middle management";
      fix_ := "Remove escalation layers; use contract tests as the sole arbiter" |});
  ("confidence_scoring",
   {| keywords := ["confidence_score"; "confidence_threshold"; "quality_score";
                   "rating"; "score_gate"; "confidence_gate"];
      severity := "MEDIUM";
      description := "Confidence scores are Goodhart-vulnerable proxies";
      fix_ := "Replace with binary pass/fail mechanical gates (tests pass or not)" |});
  ("consensus_protocol",
   {| keywords := ["vote"; "consensus"; "debate"; "deliberation";
                   "majority"; "agreement"; "negotiate"];
      severity := "MEDIUM";
      description := "Agent consensus shifts correct answers to incorrect more often than reverse";
      fix_ := "Define truth via contracts; verify via tests; no voting" |});
  ("excessive_pipeline",
   {| keywords := [];
      severity := "HIGH";
      description := "Pipelines with >4 stages spend more on coordination than production";
      fix_ := "Reduce to: decompose -> contract+test -> implement -> integrate" |});
  ("agent_evaluates_agent",
   {| keywords := ["review_output"; "check_work"; "validate_code";
                   "assess_quality"; "grade_output"; "feedback_loop"];
      severity := "HIGH";
      description := "Agents evaluating other agents' output is the core dysfunction";
      fix_ := "Only tests evaluate output; agents only produce output" |})
].

(** A finding: the dict with keys pattern, severity, description, fix and
    evidence that [validate] appends. *)
Record finding : Type := {
  f_pattern : string;
  f_severity : string;
  f_description : string;
  f_fix : string;
  f_evidence : string
}.

(** ** The checks *)

(** [check_keywords(text, keywords)] *)
Definition check_keywords (text : string) (kws : list string) : list string :=
  let text_lower := Py.lower text in
  filter (fun kw => Py.str_in (Py.lower kw) text_lower) kws.

(** [flatten_to_text(obj, depth)] *)
Fixpoint flatten_to_text (obj : value) (depth : Z) : string :=
  if (depth >? 10)%Z then ""
  else
    match obj with
    | Atom (AStr s) => s
    | Dict items =>
        Py.join " "
          (flat_map
             (fun kv => [str (fst kv); flatten_to_text (snd kv) (depth + 1)])
             items)
    | List elems =>
        Py.join " " (map (fun item => flatten_to_text item (depth + 1)) elems)
    | Atom a => str a
    end.

(** [d.get(key, default)] for a string [key]: only a [str] key can be equal
    to it. *)
Fixpoint dict_get (items : list (atom * value)) (key : string) (default : value)
  : value :=
  match items with
  | [] => default
  | (AStr k, v) :: rest => if (k =? key)%string then v else dict_get rest key default
  | _ :: rest => dict_get rest key default
  end.

(** [arch.get(key, default)]: the attribute exists on a dict only. *)
Definition get (arch : value) (key : string) (default : value) : outcome value :=
  match arch with
  | Dict items => Return (dict_get items key default)
  | _ => Raise AttributeError
  end.

(** [count_stages(arch)] *)
Definition count_stages (arch : value) : outcome nat :=
  phases <- get arch "phases" (List []) ;;
  pipeline <- get arch "pipeline" phases ;;
  stages <- get arch "stages" pipeline ;;
  match stages with
  | List l => Return (length l)
  | Dict d => Return (length d)
  | _ => Return 0%nat
  end.

(** [count_agents(arch)] *)
Definition count_agents (arch : value) : outcome nat :=
  workers <- get arch "workers" (List []) ;;
  roles <- get arch "roles" workers ;;
  agents <- get arch "agents" roles ;;
  match agents with
  | List l => Return (length l)
  | Dict d => Return (length d)
  | _ => Return 0%nat
  end.

Definition contract_terms : list string :=
  ["contract"; "interface_spec"; "typed_interface"; "componentcontract"].

Definition test_terms : list string :=
  ["test_suite"; "contract_test"; "mechanical_gate"; "pass_fail"].

(** [any(kw in full_text.lower() for kw in terms)] *)
Definition any_in (terms : list string) (full_text : string) : bool :=
  existsb (fun kw => Py.str_in kw (Py.lower full_text)) terms.

(** The finding of the stage-count branch. *)
Definition stage_finding (pattern_name : string) (p : pattern_def)
  (stage_count : nat) : finding :=
  {| f_pattern := pattern_name;
     f_severity := severity p;
     f_description := description p;
     f_fix := fix_ p;
     f_evidence :=
       "Found " ++ Py.str_of_nat stage_count ++ " stages (max recommended: 4)" |}.

(** The finding of the keyword branch. *)
Definition keyword_finding (pattern_name : string) (p : pattern_def)
  (matched : list string) : finding :=
  {| f_pattern := pattern_name;
     f_severity := severity p;
     f_description := description p;
     f_fix := fix_ p;
     f_evidence := "Keywords found: " ++ Py.join ", " matched |}.

Definition agents_finding (agent_count : nat) : finding :=
  {| f_pattern := "excessive_agents";
     f_severity := "MEDIUM";
     f_description :=
       "Architecture has " ++ Py.str_of_nat agent_count
       ++ " agents. More agents = more coordination overhead.";
     f_fix := "Reduce to minimum viable agent count. Start with 1, justify each addition.";
     f_evidence := "Agent count: " ++ Py.str_of_nat agent_count |}.

Definition contracts_finding : finding :=
  {| f_pattern := "missing_contracts";
     f_severity := "HIGH";
     f_description :=
       "No contract definitions found. Agents will produce incompatible interfaces.";
     f_fix := "Define typed interface contracts BEFORE implementation begins.";
     f_evidence := "No contract-related keywords in architecture description" |}.

Definition tests_finding : finding :=
  {| f_pattern := "missing_test_gates";
     f_severity := "HIGH";
     f_description :=
       "No mechanical test gates found. Acceptance will rely on subjective evaluation.";
     f_fix :=
       "Generate executable tests from contracts. Tests are the only acceptance criterion.";
     f_evidence := "No test-gate-related keywords in architecture description" |}.

(** The [for pattern_name, pattern in DYSFUNCTION_PATTERNS.items()] loop of
    [validate], with [findings] as the accumulator. *)
Fixpoint validate_loop (arch : value) (full_text : string)
  (patterns : list (string * pattern_def)) (findings : list finding)
  : outcome (list finding) :=
  match patterns with
  | [] => Return findings
  | (pattern_name, p) :: rest =>
      if (pattern_name =? "excessive_pipeline")%string then
        stage_count <- count_stages arch ;;
        validate_loop arch full_text rest
          (if (4 <? stage_count)%nat
           then findings ++ [stage_finding pattern_name p stage_count]
           else findings)
      else
        let matched := check_keywords full_text (keywords p) in
        validate_loop arch full_text rest
          (match matched with
           | [] => findings
           | _ :: _ => findings ++ [keyword_finding pattern_name p matched]
           end)
  end.

(** [validate(arch)] *)
Definition validate (arch : value) : outcome (list finding) :=
  let full_text := flatten_to_text arch 0 in
  findings <- validate_loop arch full_text DYSFUNCTION_PATTERNS [] ;;
  agent_count <- count_agents arch ;;
  let findings :=
    if (7 <? agent_count)%nat then findings ++ [agents_finding agent_count]
    else findings in
  let has_contracts := any_in contract_terms full_text in
  let has_tests := any_in test_terms full_text in
  let findings :=
    if negb has_contracts then findings ++ [contracts_finding] else findings in
  let findings :=
    if negb has_tests then findings ++ [tests_finding] else findings in
  Return findings.

(** ** The loader and the command line *)

(** What a path names, as far as [Path.exists] and [Path.read_text] tell. *)
Inductive node : Type :=
| File (content : string)
| Directory.

(** The world of one run: the file system, whether [import yaml] succeeded,
    and the two parsers ([None] is the parser's decode error). *)
Record env : Type := {
  fs : string -> option node;
  HAS_YAML : bool;
  json_loads : string -> option value;
  yaml_safe_load : string -> option value
}.

(** The last component of a path: what follows its last slash. *)
Fixpoint path_name (p : string) : string :=
  match p with
  | EmptyString => EmptyString
  | String c rest =>
      if Py.str_in "/" rest then path_name rest
      else if Ascii.eqb c "/" then rest
      else p
  end.

(** [name[name.rfind('.'):]], or [None] when [name] has no dot. *)
Fixpoint from_last_dot (name : string) : option string :=
  match name with
  | EmptyString => None
  | String c rest =>
      match from_last_dot rest with
      | Some s => Some s
      | None => if Ascii.eqb c "." then Some name else None
      end
  end.

(** [Path(filepath).suffix]: the name from its last dot on, unless that dot
    is the first or the last character of the name. *)
Definition suffix (filepath : string) : string :=
  let name := path_name filepath in
  match from_last_dot name with
  | Some s =>
      if (String.length s <? String.length name)%nat
         && (1 <? String.length s)%nat
      then s else ""
  | None => ""
  end.

Definition path_exists (E : env) (filepath : string) : bool :=
  match fs E filepath with
  | Some _ => true
  | None => false
  end.

Definition read_text (E : env) (filepath : string) : outcome string :=
  match fs E filepath with
  | Some (File content) => Return content
  | _ => Raise IsADirectoryError
  end.

Definition of_json (E : env) (content : string) : outcome value :=
  match json_loads E content with
  | Some v => Return v
  | None => Raise JSONDecodeError
  end.

Definition of_yaml (E : env) (content : string) : outcome value :=
  match yaml_safe_load E content with
  | Some v => Return v
  | None => Raise YAMLError
  end.

(** [load_architecture(filepath)] *)
Definition load_architecture (E : env) (filepath : string) : io value :=
  content <~ lift (read_text E filepath) ;;
  let sfx := suffix filepath in
  if (sfx =? ".yaml")%string || (sfx =? ".yml")%string then
    if negb (HAS_YAML E) then
      print "ERROR: pyyaml required for YAML files. Install: pip install pyyaml" ;;;
      sys_exit 1
    else lift (of_yaml E content)
  else if (sfx =? ".json")%string then lift (of_json E content)
  else
    match of_json E content with
    | Raise JSONDecodeError =>
        if HAS_YAML E then lift (of_yaml E content)
        else lift (Raise (ValueError
                            ("Cannot parse " ++ filepath
                             ++ ". Use .json or .yaml format.")))
    | r => lift r
    end.

(** The four prints and the blank line of one turn of the report loop. *)
Definition report_finding (i : nat) (f : finding) : io unit :=
  print ("  [" ++ f_severity f ++ "] " ++ Py.str_of_nat i ++ ". " ++ f_pattern f) ;;;
  print ("    Problem:  " ++ f_description f) ;;;
  print ("    Evidence: " ++ f_evidence f) ;;;
  print ("    Fix:      " ++ f_fix f) ;;;
  print "".

(** [for i, f in enumerate(findings, 1): ...], from index [i] on. *)
Fixpoint report_findings (i : nat) (findings : list finding) : io unit :=
  match findings with
  | [] => io_ret tt
  | f :: rest => report_finding i f ;;; report_findings (S i) rest
  end.

(** [sum(1 for f in findings if f["severity"] == "HIGH")] *)
Definition high_count (findings : list finding) : nat :=
  length (filter (fun f => (f_severity f =? "HIGH")%string) findings).

Definition usage_line : string :=
  "Usage: python validate_architecture.py <architecture_file.yaml|json>".
Definition usage_blurb : string :=
  Py.LF ++ "Validates a multi-agent architecture for dysfunction patterns.".
Definition pass_line : string := "PASS: No dysfunction patterns detected.".
Definition pass_blurb : string :=
  "Architecture appears to follow contract-first coordination principles.".
Definition warn_line : string :=
  "WARN: Issues found but none are HIGH severity. Review recommended.".
Definition fail_line (n : nat) : string :=
  "FAIL: " ++ Py.str_of_nat n
  ++ " HIGH severity issue(s). Architecture needs redesign.".
Definition findings_line (n : nat) : string :=
  "FINDINGS: " ++ Py.str_of_nat n
  ++ " potential dysfunction pattern(s) detected" ++ Py.LF.

(** [main()], with [sys.argv] as [argv]. *)
Definition main (E : env) (argv : list string) : io unit :=
  if (length argv <? 2)%nat then
    print usage_line ;;; print usage_blurb ;;; sys_exit 1
  else
    let filepath := nth 1 argv "" in
    if negb (path_exists E filepath) then
      print ("ERROR: File not found: " ++ filepath) ;;; sys_exit 1
    else
      arch <~ load_architecture E filepath ;;
      findings <~ lift (validate arch) ;;
      match findings with
      | [] => print pass_line ;;; print pass_blurb ;;; sys_exit 0
      | _ :: _ =>
          print (findings_line (length findings)) ;;;
          report_findings 1 findings ;;;
          let n := high_count findings in
          if (0 <? n)%nat then print (fail_line n) ;;; sys_exit 1
          else print warn_line ;;; sys_exit 0
      end.

(** * Vocabulary of the statements, and sample data *)

(** ** Occurrences in a text *)

(** [sub] occurs in [text] at some position, with anything around it. *)
Definition substring_of (sub text : string) : Prop :=
  exists pre post, text = (pre ++ sub ++ post)%string.

(** [kw] occurs in [text] up to letter case: some stretch of [text], with
    anything before and after it, lowercases to the lowercased [kw]. *)
Definition occurs_ci (kw text : string) : Prop :=
  exists u, substring_of u text /\ Py.lower u = Py.lower kw.

(** ** Flattening by levels *)

(** The flattener as the specification words it: a budget of nesting levels
    instead of a depth counter; with no level left the text is empty. *)
Fixpoint flatten_levels (levels : nat) (obj : value) : string :=
  match levels with
  | O => ""
  | S n =>
      match obj with
      | Atom a => str a
      | List elems => Py.join " " (map (flatten_levels n) elems)
      | Dict items =>
          Py.join " "
            (flat_map (fun kv => [str (fst kv); flatten_levels n (snd kv)]) items)
      end
  end.

(** [v] and [w] are the same document down to [n] levels of nesting: below
    that they may hold anything. *)
Fixpoint same_upto (n : nat) (v w : value) : Prop :=
  match n with
  | O => True
  | S n' =>
      match v, w with
      | Atom a, Atom b => a = b
      | List l, List l' => Forall2 (same_upto n') l l'
      | Dict d, Dict d' =>
          Forall2 (fun kv kv' =>
                     fst kv = fst kv' /\ same_upto n' (snd kv) (snd kv')) d d'
      | _, _ => False
      end
  end.

(** ** Fields and counts *)

(** The value stored under the string key [key], if the dict has it. *)
Fixpoint dict_lookup (items : list (atom * value)) (key : string) : option value :=
  match items with
  | [] => None
  | (AStr k, v) :: rest =>
      if (k =? key)%string then Some v else dict_lookup rest key
  | _ :: rest => dict_lookup rest key
  end.

(** The first field of [fields] that is a key of the dict, by presence
    alone. *)
Fixpoint first_present (items : list (atom * value)) (fields : list string)
  : option value :=
  match fields with
  | [] => None
  | f :: rest =>
      match dict_lookup items f with
      | Some v => Some v
      | None => first_present items rest
      end
  end.

(** Length of a sequence, key count of a mapping, 0 for anything else. *)
Definition size_of (v : value) : nat :=
  match v with
  | List l => length l
  | Dict d => length d
  | Atom _ => 0
  end.

(** The count read from the first present field, 0 when none is. *)
Definition field_count (items : list (atom * value)) (fields : list string) : nat :=
  match first_present items fields with
  | Some v => size_of v
  | None => 0
  end.

Definition stage_fields : list string := ["stages"; "pipeline"; "phases"].
Definition agent_fields : list string := ["agents"; "roles"; "workers"].

(** ** The findings of a mapping, piece by piece *)

(** What one turn of the registry loop appends. *)
Definition step_findings (items : list (atom * value)) (full_text : string)
  (entry : string * pattern_def) : list finding :=
  let (pattern_name, p) := entry in
  if (pattern_name =? "excessive_pipeline")%string then
    let stage_count := field_count items stage_fields in
    if (4 <? stage_count)%nat then [stage_finding pattern_name p stage_count]
    else []
  else
    match check_keywords full_text (keywords p) with
    | [] => []
    | matched => [keyword_finding pattern_name p matched]
    end.

(** What follows the loop: agent count, then the two presence checks. *)
Definition agents_part (items : list (atom * value)) : list finding :=
  let agent_count := field_count items agent_fields in
  if (7 <? agent_count)%nat then [agents_finding agent_count] else [].

Definition contracts_part (full_text : string) : list finding :=
  if any_in contract_terms full_text then [] else [contracts_finding].

Definition tests_part (full_text : string) : list finding :=
  if any_in test_terms full_text then [] else [tests_finding].

(** ** Runs of the loader and of [main] *)

Definition pyyaml_line : string :=
  "ERROR: pyyaml required for YAML files. Install: pip install pyyaml".

Definition cannot_parse (filepath : string) : exn :=
  ValueError ("Cannot parse " ++ filepath ++ ". Use .json or .yaml format.").

(** The suffix asks for YAML. *)
Definition is_yaml (filepath : string) : bool :=
  (suffix filepath =? ".yaml")%string || (suffix filepath =? ".yml")%string.

(** The suffix asks for JSON. *)
Definition is_json (filepath : string) : bool :=
  (suffix filepath =? ".json")%string.

(** The lines the report loop prints. *)
Fixpoint report_lines (i : nat) (findings : list finding) : list string :=
  match findings with
  | [] => []
  | f :: rest =>
      [("  [" ++ f_severity f ++ "] " ++ Py.str_of_nat i ++ ". " ++ f_pattern f)%string;
       ("    Problem:  " ++ f_description f)%string;
       ("    Evidence: " ++ f_evidence f)%string;
       ("    Fix:      " ++ f_fix f)%string;
       ""] ++ report_lines (S i) rest
  end.

(** The report and exit of [main] once [validate] has returned. *)
Definition verdict (findings : list finding) : io unit :=
  match findings with
  | [] => ([pass_line; pass_blurb], Raise (SystemExit 0))
  | _ :: _ =>
      if (0 <? high_count findings)%nat then
        (findings_line (length findings) :: report_lines 1 findings
           ++ [fail_line (high_count findings)],
         Raise (SystemExit 1))
      else
        (findings_line (length findings) :: report_lines 1 findings
           ++ [warn_line],
         Raise (SystemExit 0))
  end.

(** The run reaches [validate] with [arch]: a file argument is given, the
    file exists, and the loader returns [arch]. *)
Definition loads (E : env) (argv : list string) (arch : value) : Prop :=
  (2 <= length argv)%nat /\
  path_exists E (nth 1 argv "") = true /\
  snd (load_architecture E (nth 1 argv "")) = Return arch.


(** [DYSFUNCTION_PATTERNS[name]] *)
Definition pattern_of (name : string) : pattern_def :=
  match find (fun e => (fst e =? name)%string) DYSFUNCTION_PATTERNS with
  | Some e => snd e
  | None => {| keywords := []; severity := ""; description := ""; fix_ := "" |}
  end.

(** ** Sample documents and a sample world *)

Definition s_ (s : string) : value := Atom (AStr s).

(** A string at nesting depth 11, under ten lists and a mapping key. *)
Definition nest (n : nat) (v : value) : value :=
  Nat.iter n (fun x => List [x]) v.

Definition deep_doc (s : string) : value :=
  Dict [(AStr "top", nest 10 (Atom (AStr s)))].

(** [{"agents": ["a1"], "stages": ["decompose", "contract", "implement",
    "integrate"], "contract": true, "test_suite": true}] *)
Definition clean_items : list (atom * value) :=
  [(AStr "agents", List [s_ "a1"]);
   (AStr "stages",
    List [s_ "decompose"; s_ "contract"; s_ "implement"; s_ "integrate"]);
   (AStr "contract", Atom (ABool true));
   (AStr "test_suite", Atom (ABool true))].

(** [{"roles": ["reviewer", "implementer"],
     "pipeline": ["s1", "s2", "s3", "s4", "s5"]}] *)
Definition review_items : list (atom * value) :=
  [(AStr "roles", List [s_ "reviewer"; s_ "implementer"]);
   (AStr "pipeline", List [s_ "s1"; s_ "s2"; s_ "s3"; s_ "s4"; s_ "s5"])].

(** [{"stages": ["s1", "s2", "s3", "s4", "s5"], "notes": "feedback_loop",
     "contract": true, "test_suite": true}] *)
Definition late_keyword_items : list (atom * value) :=
  [(AStr "stages", List [s_ "s1"; s_ "s2"; s_ "s3"; s_ "s4"; s_ "s5"]);
   (AStr "notes", s_ "feedback_loop");
   (AStr "contract", Atom (ABool true));
   (AStr "test_suite", Atom (ABool true))].

(** [{"stages": "five", "pipeline": ["s1", "s2", "s3", "s4", "s5"]}] *)
Definition shadowed_items : list (atom * value) :=
  [(AStr "stages", s_ "five");
   (AStr "pipeline", List [s_ "s1"; s_ "s2"; s_ "s3"; s_ "s4"; s_ "s5"])].


(** The file contents of the sample world, in YAML flow style where the
    file holds a mapping. *)
Definition clean_text : string :=
  "{agents: [a1], stages: [decompose, contract, implement, integrate], contract: true, test_suite: true}".
Definition review_text : string :=
  "{roles: [reviewer, implementer], pipeline: [s1, s2, s3, s4, s5]}".

(** [json.loads] on the contents the sample files hold: an empty array is a
    list, everything else here is not JSON. *)
Definition sample_json (content : string) : option value :=
  if (content =? "[]")%string then Some (List []) else None.

(** [yaml.safe_load] on the contents the sample files hold: the two flow
    mappings, the empty array, and the empty document, which loads as None;
    an unclosed brace is not YAML. *)
Definition sample_yaml (content : string) : option value :=
  if (content =? clean_text)%string then Some (Dict clean_items)
  else if (content =? review_text)%string then Some (Dict review_items)
  else if (content =? "[]")%string then Some (List [])
  else if (content =? "")%string then Some (Atom ANone)
  else None.

Definition sample_fs (filepath : string) : option node :=
  if (filepath =? "clean.yaml")%string then Some (File clean_text)
  else if (filepath =? "review.yaml")%string then Some (File review_text)
  else if (filepath =? "list.json")%string then Some (File "[]")
  else if (filepath =? "empty.yaml")%string then Some (File "")
  else if (filepath =? "broken.json")%string then Some (File "{")
  else if (filepath =? "broken.yaml")%string then Some (File "{")
  else if (filepath =? "broken.txt")%string then Some (File "{")
  else if (filepath =? "configs")%string then Some Directory
  else None.

Definition sample_env (has_yaml : bool) : env :=
  {| fs := sample_fs;
     HAS_YAML := has_yaml;
     json_loads := sample_json;
     yaml_safe_load := sample_yaml |}.

Definition prog : string := "validate_architecture.py".

(** ** Keywords, order, and kinds of run *)



(** [l] is [m] with some elements left out. *)
Inductive subseq {A : Type} : list A -> list A -> Prop :=
| subseq_nil : subseq [] []
| subseq_skip x l m : subseq l m -> subseq l (x :: m)
| subseq_take x l m : subseq l m -> subseq (x :: l) (x :: m).

(** The order in which [validate] can report: the registry's own order,
    then the three trailing checks. *)
Definition report_order : list string :=
  map fst DYSFUNCTION_PATTERNS
  ++ ["excessive_agents"; "missing_contracts"; "missing_test_gates"].

(** The stage of the claimed order a finding belongs to: keyword findings,
    then stage count, agent count, contracts, test gates. *)
Definition phase (f : finding) : nat :=
  if (f_pattern f =? "excessive_pipeline")%string then 1
  else if (f_pattern f =? "excessive_agents")%string then 2
  else if (f_pattern f =? "missing_contracts")%string then 3
  else if (f_pattern f =? "missing_test_gates")%string then 4
  else 0.

(** Every keyword finding before the stage-count finding, and so on. *)
Definition keyword_findings_first (findings : list finding) : Prop :=
  forall i j f g,
    (i < j)%nat -> nth_error findings i = Some f -> nth_error findings j = Some g ->
    (phase f <= phase g)%nat.




(** The run fails before validation: no file argument, a missing file, or a
    loader that raises (unreadable path, missing YAML library, content that
    does not parse). *)
Definition failed_before_validation (E : env) (argv : list string) : Prop :=
  (length argv < 2)%nat \/
  ((2 <= length argv)%nat /\ path_exists E (nth 1 argv "") = false) \/
  ((2 <= length argv)%nat /\ path_exists E (nth 1 argv "") = true /\
   exists e, snd (load_architecture E (nth 1 argv "")) = Raise e).

(** [validate] returned [findings] in this run. *)
Definition produced (E : env) (argv : list string) (findings : list finding)
  : Prop :=
  exists arch, loads E argv arch /\ validate arch = Return findings.

(** The run reached [validate] with something that is not a mapping. *)
Definition validated_non_mapping (E : env) (argv : list string) : Prop :=
  exists arch, loads E argv arch /\ forall items, arch <> Dict items.

(** ** Vocabulary of the further properties *)

(** [s] is written in [v] within [levels] levels of nesting: as the string
    form of a scalar, or as the string form of a mapping key. *)
Inductive occurs_within : nat -> value -> string -> Prop :=
| within_atom n a : occurs_within (S n) (Atom a) (str a)
| within_elem n elems x s :
    In x elems -> occurs_within n x s -> occurs_within (S n) (List elems) s
| within_key n items k x :
    In (k, x) items -> occurs_within (S n) (Dict items) (str k)
| within_value n items k x s :
    In (k, x) items -> occurs_within n x s -> occurs_within (S n) (Dict items) s.


(** Some finding of the list is reported under [name]. *)
Definition reported (name : string) (findings : list finding) : Prop :=
  exists f, In f findings /\ f_pattern f = name.


(** [{"notes": "Score_Gate and contract_test"}] *)
Definition notes_items : list (atom * value) :=
  [(AStr "notes", s_ "Score_Gate and contract_test")].


(** All the findings of a mapping, in the order [validate] appends them. *)
Definition findings_of (items : list (atom * value)) : list finding :=
  let text := flatten_to_text (Dict items) 0 in
  flat_map (step_findings items text) DYSFUNCTION_PATTERNS
  ++ agents_part items ++ contracts_part text ++ tests_part text.



(** * Properties *)

(** ** Strings: what [in] and [lower] compute *)

Lemma startswith_iff text sub :
  Py.startswith text sub = true <-> exists post, text = (sub ++ post)%string.
Proof.
  revert text; induction sub as [|c sub IH]; intros text; simpl.
  - split; [intros _; now exists text | reflexivity].
  - destruct text as [|d text].
    + split; [discriminate | intros [post H]; discriminate].
    + rewrite andb_true_iff, Ascii.eqb_eq, IH. split.
      * intros [-> [post ->]]. now exists post.
      * intros [post H]. injection H as -> ->. split; [reflexivity | now exists post].
Qed.

Lemma str_in_iff sub text :
  Py.str_in sub text = true <-> substring_of sub text.
Proof.
  unfold substring_of.
  induction text as [|d text IH]; simpl; rewrite orb_true_iff, startswith_iff.
  - split.
    + intros [[post H] | H]; [|discriminate]. now exists "", post.
    + intros [pre [post H]]. left. destruct pre; [|discriminate].
      now exists post.
  - rewrite IH. split.
    + intros [[post H] | [pre [post H]]].
      * now exists "", post.
      * exists (String d pre), post. simpl. now rewrite H.
    + intros [[|c pre] [post H]].
      * left. now exists post.
      * right. simpl in H. injection H as -> ->. now exists pre, post.
Qed.

Lemma lower_app a b : Py.lower (a ++ b) = (Py.lower a ++ Py.lower b)%string.
Proof. induction a as [|c a IH]; simpl; [reflexivity | now rewrite IH]. Qed.

Lemma lower_app_inv t a b :
  Py.lower t = (a ++ b)%string ->
  exists x y, t = (x ++ y)%string /\ Py.lower x = a /\ Py.lower y = b.
Proof.
  revert t; induction a as [|c a IH]; intros t H; simpl in H.
  - now exists "", t.
  - destruct t as [|d t]; [discriminate|]. simpl in H. injection H as Hc Ht.
    destruct (IH _ Ht) as (x & y & -> & Hx & Hy).
    exists (String d x), y. simpl. now rewrite Hc, Hx.
Qed.

(** The test of [check_keywords] is the case-blind occurrence. *)
Lemma str_in_lower_iff kw text :
  Py.str_in (Py.lower kw) (Py.lower text) = true <-> occurs_ci kw text.
Proof.
  rewrite str_in_iff. unfold occurs_ci, substring_of. split.
  - intros (pre & post & H).
    apply lower_app_inv in H as (x & y & -> & _ & Hy).
    apply lower_app_inv in Hy as (u & z & -> & Hu & _).
    exists u. split; [now exists x, z | exact Hu].
  - intros (u & (pre & post & ->) & Hu).
    exists (Py.lower pre), (Py.lower post).
    now rewrite !lower_app, Hu.
Qed.

Lemma check_keywords_In text kws kw :
  In kw (check_keywords text kws) <-> In kw kws /\ occurs_ci kw text.
Proof.
  unfold check_keywords. now rewrite filter_In, str_in_lower_iff.
Qed.

Lemma any_in_iff terms text :
  any_in terms text = true <->
  exists kw, In kw terms /\ substring_of kw (Py.lower text).
Proof.
  unfold any_in. rewrite existsb_exists.
  split; intros (kw & Hin & H); exists kw; (split; [exact Hin|]);
    now apply str_in_iff.
Qed.

(** ** The flattener *)

Lemma flatten_to_text_unfold obj depth :
  flatten_to_text obj depth =
  if (depth >? 10)%Z then ""
  else
    match obj with
    | Atom a => str a
    | List elems =>
        Py.join " " (map (fun item => flatten_to_text item (depth + 1)) elems)
    | Dict items =>
        Py.join " "
          (flat_map
             (fun kv => [str (fst kv); flatten_to_text (snd kv) (depth + 1)])
             items)
    end.
Proof. destruct obj as [[| | | |]| |]; reflexivity. Qed.

Lemma flatten_to_text_levels n :
  forall obj depth,
    n = Z.to_nat (11 - depth) ->
    flatten_to_text obj depth = flatten_levels n obj.
Proof.
  induction n as [|n IH]; intros obj depth Hn;
    rewrite flatten_to_text_unfold.
  - destruct (Z.gtb_spec depth 10) as [_|H]; [reflexivity | lia].
  - destruct (Z.gtb_spec depth 10) as [H|_]; [lia|].
    assert (Hn' : n = Z.to_nat (11 - (depth + 1))) by lia.
    destruct obj as [a|elems|items]; simpl.
    + reflexivity.
    + f_equal. apply map_ext. intros x. now apply IH.
    + f_equal. induction items as [|kv items IHi]; simpl; [reflexivity|].
      now rewrite IHi, (IH (snd kv) (depth + 1)%Z Hn').
Qed.

Lemma flatten_levels_same n :
  forall v w, same_upto n v w -> flatten_levels n v = flatten_levels n w.
Proof.
  induction n as [|n IH]; intros v w H; simpl; [reflexivity|].
  destruct v as [a|l|d], w as [b|l'|d']; simpl in H; try contradiction.
  - now subst.
  - f_equal. induction H as [|x y l l' Hxy _ IHl]; simpl; [reflexivity|].
    now rewrite IHl, (IH _ _ Hxy).
  - f_equal. induction H as [|x y l l' [Hk Hv] _ IHl]; simpl; [reflexivity|].
    now rewrite IHl, Hk, (IH _ _ Hv).
Qed.

(** C8. Past depth 10 the flattener returns the empty string whatever the
    value; up to depth 10 it returns, joined by single spaces, for a mapping
    each key's string form followed by the flattened value one level down,
    for a sequence the flattened elements one level down, for a scalar its
    string form.  Equivalently it spends a budget of [11 - depth] levels, so
    two documents that differ only below the cap flatten to the same text. *)
Theorem flatten_to_text_contract :
  (forall obj depth, (10 < depth)%Z -> flatten_to_text obj depth = "") /\
  (forall depth, (depth <= 10)%Z ->
     (forall items,
        flatten_to_text (Dict items) depth =
        Py.join " "
          (flat_map
             (fun kv => [str (fst kv); flatten_to_text (snd kv) (depth + 1)])
             items)) /\
     (forall elems,
        flatten_to_text (List elems) depth =
        Py.join " " (map (fun item => flatten_to_text item (depth + 1)) elems)) /\
     (forall a, flatten_to_text (Atom a) depth = str a)) /\
  (forall obj depth,
     flatten_to_text obj depth = flatten_levels (Z.to_nat (11 - depth)) obj) /\
  (forall v w depth,
     same_upto (Z.to_nat (11 - depth)) v w ->
     flatten_to_text v depth = flatten_to_text w depth).
Proof.
  split; [|split; [|split]].
  - intros obj depth H. rewrite flatten_to_text_unfold.
    destruct (Z.gtb_spec depth 10); [reflexivity | lia].
  - intros depth H.
    repeat split; intros; rewrite flatten_to_text_unfold;
      (destruct (Z.gtb_spec depth 10); [lia | reflexivity]).
  - intros obj depth. now apply flatten_to_text_levels.
  - intros v w depth H.
    rewrite !(flatten_to_text_levels _ _ _ eq_refl).
    now apply flatten_levels_same.
Qed.

Lemma flatten_to_text_contract_witness :
  ((10 < 11)%Z /\ flatten_to_text (Atom (AStr "reviewer")) 11 = "") /\
  ((0 <= 10)%Z /\ flatten_to_text (Atom (AInt 7)) 0 = "7") /\
  (same_upto (Z.to_nat (11 - 0)) (deep_doc "reviewer") (deep_doc "x") /\
   flatten_to_text (deep_doc "reviewer") 0 = flatten_to_text (deep_doc "x") 0) /\
  flatten_to_text (deep_doc "reviewer") 0 = "top ".
Proof.
  assert (Hdeep : same_upto (Z.to_nat (11 - 0)) (deep_doc "reviewer") (deep_doc "x")).
  { simpl. repeat (constructor; simpl; auto). }
  destruct flatten_to_text_contract as (Hcap & Heq & _ & Hsame).
  split; [|split; [|split]].
  - split; [lia | apply Hcap; lia].
  - split; [lia | apply (Heq 0%Z)]. lia.
  - split; [exact Hdeep | apply Hsame, Hdeep].
  - reflexivity.
Defined.

(** ** Counting: the first present field *)

Lemma dict_get_lookup items key default :
  dict_get items key default =
  match dict_lookup items key with Some v => v | None => default end.
Proof.
  induction items as [|[k v] items IH]; simpl; [reflexivity|].
  destruct k; try exact IH. now destruct (s =? key)%string.
Qed.

Lemma count_stages_dict items :
  count_stages (Dict items) = Return (field_count items stage_fields).
Proof.
  unfold count_stages, field_count; simpl. rewrite !dict_get_lookup.
  destruct (dict_lookup items "stages") as [[| |]|]; try reflexivity.
  destruct (dict_lookup items "pipeline") as [[| |]|]; try reflexivity.
  destruct (dict_lookup items "phases") as [[| |]|]; reflexivity.
Qed.

Lemma count_agents_dict items :
  count_agents (Dict items) = Return (field_count items agent_fields).
Proof.
  unfold count_agents, field_count; simpl. rewrite !dict_get_lookup.
  destruct (dict_lookup items "agents") as [[| |]|]; try reflexivity.
  destruct (dict_lookup items "roles") as [[| |]|]; try reflexivity.
  destruct (dict_lookup items "workers") as [[| |]|]; reflexivity.
Qed.

Lemma count_stages_not_dict arch :
  (forall items, arch <> Dict items) -> count_stages arch = Raise AttributeError.
Proof. destruct arch; intros H; try reflexivity. now destruct (H items). Qed.

(** ** The findings of a mapping, piece by piece *)

Lemma validate_loop_dict items full_text patterns :
  forall findings,
    validate_loop (Dict items) full_text patterns findings =
    Return (findings ++ flat_map (step_findings items full_text) patterns).
Proof.
  induction patterns as [|[name p] patterns IH]; intros findings; simpl.
  - now rewrite app_nil_r.
  - destruct (name =? "excessive_pipeline")%string.
    + rewrite count_stages_dict; simpl. rewrite IH.
      destruct (4 <? _)%nat; simpl; [now rewrite <- app_assoc | reflexivity].
    + rewrite IH.
      destruct (check_keywords _ _); simpl; [reflexivity | now rewrite <- app_assoc].
Qed.

(** [validate] never raises on a mapping, and its result is the registry
    loop's findings followed by the three trailing checks. *)
Lemma validate_dict items :
  let full_text := flatten_to_text (Dict items) 0 in
  validate (Dict items) =
  Return (flat_map (step_findings items full_text) DYSFUNCTION_PATTERNS
          ++ agents_part items ++ contracts_part full_text
          ++ tests_part full_text).
Proof.
  intros full_text. unfold validate. fold full_text.
  rewrite validate_loop_dict, count_agents_dict. cbn [obind app].
  unfold agents_part, contracts_part, tests_part.
  destruct (7 <? _)%nat, (any_in contract_terms _), (any_in test_terms _);
    cbn [negb]; rewrite ?app_nil_r, <- ?app_assoc; reflexivity.
Qed.

Lemma validate_not_dict arch :
  (forall items, arch <> Dict items) -> validate arch = Raise AttributeError.
Proof.
  intros H. unfold validate.
  assert (Hs := count_stages_not_dict arch H).
  cbn -[flatten_to_text count_stages count_agents check_keywords].
  rewrite Hs. reflexivity.
Qed.

(** ** The loader and the report *)

(** The loader on a readable file, by cases on the suffix. *)
Lemma load_architecture_file E filepath content :
  fs E filepath = Some (File content) ->
  load_architecture E filepath =
  if is_yaml filepath then
    if HAS_YAML E then ([], of_yaml E content)
    else ([pyyaml_line], Raise (SystemExit 1))
  else if is_json filepath then ([], of_json E content)
  else
    match json_loads E content with
    | Some v => ([], Return v)
    | None =>
        if HAS_YAML E then ([], of_yaml E content)
        else ([], Raise (cannot_parse filepath))
    end.
Proof.
  intros Hfs. unfold load_architecture, read_text, is_yaml, is_json.
  rewrite Hfs. cbn [lift io_bind app].
  destruct (_ || _).
  - destruct (HAS_YAML E); cbn [negb]; [|reflexivity].
    unfold lift. now destruct (of_yaml E content).
  - destruct (_ =? ".json")%string.
    + unfold lift. now destruct (of_json E content).
    + unfold of_json. destruct (json_loads E content); [reflexivity|].
      destruct (HAS_YAML E); [|reflexivity].
      unfold lift. now destruct (of_yaml E content).
Qed.

Lemma load_architecture_directory E filepath :
  fs E filepath = Some Directory ->
  load_architecture E filepath = ([], Raise IsADirectoryError).
Proof.
  intros Hfs. unfold load_architecture, read_text. now rewrite Hfs.
Qed.

(** A loader that returns has printed nothing. *)
Lemma load_architecture_return E filepath out arch :
  load_architecture E filepath = (out, Return arch) -> out = [].
Proof.
  destruct (fs E filepath) as [[content|]|] eqn:Hfs.
  - rewrite (load_architecture_file _ _ _ Hfs).
    unfold of_yaml, of_json.
    destruct (is_yaml filepath), (is_json filepath), (HAS_YAML E),
      (json_loads E content), (yaml_safe_load E content); congruence.
  - rewrite (load_architecture_directory _ _ Hfs). congruence.
  - unfold load_architecture, read_text. rewrite Hfs. cbn. congruence.
Qed.

Lemma report_findings_lines findings :
  forall i, report_findings i findings = (report_lines i findings, Return tt).
Proof.
  induction findings as [|f rest IH]; intros i; simpl; [reflexivity|].
  now rewrite IH.
Qed.

Lemma main_usage E argv :
  (length argv < 2)%nat ->
  main E argv = ([usage_line; usage_blurb], Raise (SystemExit 1)).
Proof.
  intros H. unfold main.
  destruct (Nat.ltb_spec (length argv) 2); [reflexivity | lia].
Qed.

Lemma main_missing E argv :
  (2 <= length argv)%nat ->
  path_exists E (nth 1 argv "") = false ->
  main E argv =
  ([("ERROR: File not found: " ++ nth 1 argv "")%string], Raise (SystemExit 1)).
Proof.
  intros H Hex. unfold main.
  destruct (Nat.ltb_spec (length argv) 2); [lia|].
  now rewrite Hex.
Qed.

Lemma main_load_raises E argv out e :
  (2 <= length argv)%nat ->
  path_exists E (nth 1 argv "") = true ->
  load_architecture E (nth 1 argv "") = (out, Raise e) ->
  main E argv = (out, Raise e).
Proof.
  intros H Hex Hload. unfold main.
  destruct (Nat.ltb_spec (length argv) 2); [lia|].
  rewrite Hex, Hload. reflexivity.
Qed.

Lemma main_validate_raises E argv arch e :
  loads E argv arch ->
  validate arch = Raise e ->
  main E argv = ([], Raise e).
Proof.
  intros (H & Hex & Hload) Hv. unfold main.
  destruct (Nat.ltb_spec (length argv) 2); [lia|].
  rewrite Hex. cbn [negb].
  destruct (load_architecture E (nth 1 argv "")) as [out r] eqn:Hl.
  simpl in Hload; subst r.
  rewrite (load_architecture_return _ _ _ _ Hl). cbn [io_bind].
  rewrite Hv. reflexivity.
Qed.

Lemma main_validated E argv arch findings :
  loads E argv arch ->
  validate arch = Return findings ->
  main E argv = verdict findings.
Proof.
  intros (H & Hex & Hload) Hv. unfold main.
  destruct (Nat.ltb_spec (length argv) 2); [lia|].
  rewrite Hex. cbn [negb].
  destruct (load_architecture E (nth 1 argv "")) as [out r] eqn:Hl.
  simpl in Hload; subst r.
  rewrite (load_architecture_return _ _ _ _ Hl). cbn [io_bind].
  rewrite Hv. unfold verdict. destruct findings as [|f rest]; [reflexivity|].
  cbn [lift io_bind app print].
  rewrite report_findings_lines.
  destruct (0 <? _)%nat; cbn [print sys_exit io_bind app].
  all: reflexivity.
Qed.


(** ** Facts about the registry *)

Ltac registry_cases H :=
  unfold DYSFUNCTION_PATTERNS in H; simpl in H;
  repeat (destruct H as [H|H]; [injection H as <- <-|]); [..|contradiction].

Lemma registry_functional name p q :
  In (name, p) DYSFUNCTION_PATTERNS -> In (name, q) DYSFUNCTION_PATTERNS -> p = q.
Proof.
  intros Hp Hq. registry_cases Hp;
    (unfold DYSFUNCTION_PATTERNS in Hq; simpl in Hq;
     repeat (destruct Hq as [Hq|Hq];
             [first [discriminate Hq | now injection Hq as <-]|]);
     contradiction).
Qed.


(** The trailing checks use names the registry does not. *)
Lemma registry_names name p :
  In (name, p) DYSFUNCTION_PATTERNS ->
  name <> "excessive_agents" /\ name <> "missing_contracts"
  /\ name <> "missing_test_gates".
Proof. intros H. registry_cases H; repeat split; discriminate. Qed.

Lemma step_findings_pattern items text entry f :
  In f (step_findings items text entry) -> f_pattern f = fst entry.
Proof.
  destruct entry as [name p]; unfold step_findings.
  destruct (name =? "excessive_pipeline")%string.
  - destruct (4 <? _)%nat; simpl; [|contradiction].
    intros [<-|[]]; reflexivity.
  - destruct (check_keywords text (keywords p)); simpl; [contradiction|].
    intros [<-|[]]; reflexivity.
Qed.

Lemma tail_findings_pattern items text f :
  In f (agents_part items ++ contracts_part text ++ tests_part text) ->
  f_pattern f = "excessive_agents" \/ f_pattern f = "missing_contracts"
  \/ f_pattern f = "missing_test_gates".
Proof.
  unfold agents_part, contracts_part, tests_part.
  rewrite !in_app_iff.
  destruct (7 <? _)%nat, (any_in contract_terms text), (any_in test_terms text);
    simpl; intuition (subst; auto).
Qed.

(** The findings of [validate] that carry a registry name come from that
    entry's turn of the loop. *)
Lemma registry_finding_inv items name p f :
  let text := flatten_to_text (Dict items) 0 in
  In (name, p) DYSFUNCTION_PATTERNS ->
  In f (flat_map (step_findings items text) DYSFUNCTION_PATTERNS
        ++ agents_part items ++ contracts_part text ++ tests_part text) ->
  f_pattern f = name ->
  In f (step_findings items text (name, p)).
Proof.
  intros text Hreg Hin Hname. apply in_app_or in Hin as [Hin|Hin].
  - apply in_flat_map in Hin as ([name' q] & Hq & Hin).
    assert (Hn := step_findings_pattern _ _ _ _ Hin). simpl in Hn.
    rewrite Hname in Hn. subst name'.
    now rewrite (registry_functional _ _ _ Hreg Hq).
  - apply tail_findings_pattern in Hin.
    destruct (registry_names _ _ Hreg) as (H1 & H2 & H3).
    rewrite Hname in Hin. intuition.
Qed.


(** ** Keyword findings *)



(** ** Clean documents *)






(** ** The document with a reviewer and five stages *)

(** C6. The document with roles [reviewer], [implementer] and a pipeline
    of five stages gets exactly four findings: [review_chain] for the
    keyword [reviewer], [excessive_pipeline] for the five stages read from
    the [pipeline] field, [missing_contracts] and [missing_test_gates]; the
    run that loads it exits with status 1. *)
Theorem review_document_fails :
  dict_lookup review_items "stages" = None /\
  option_map size_of (dict_lookup review_items "pipeline") = Some 5%nat /\
  count_stages (Dict review_items) = Return 5%nat /\
  count_agents (Dict review_items) = Return 2%nat /\
  validate (Dict review_items) =
    Return [keyword_finding "review_chain" (pattern_of "review_chain")
              ["reviewer"];
            stage_finding "excessive_pipeline"
              (pattern_of "excessive_pipeline") 5;
            contracts_finding;
            tests_finding] /\
  f_evidence (keyword_finding "review_chain" (pattern_of "review_chain")
                ["reviewer"]) = "Keywords found: reviewer" /\
  f_evidence (stage_finding "excessive_pipeline"
                (pattern_of "excessive_pipeline") 5)
    = "Found 5 stages (max recommended: 4)" /\
  snd (main (sample_env true) [prog; "review.yaml"]) = Raise (SystemExit 1) /\
  last (stdout (main (sample_env true) [prog; "review.yaml"])) "" = fail_line 4 /\
  exit_status (main (sample_env true) [prog; "review.yaml"]) = 1%Z.
Proof. repeat split; reflexivity. Qed.

(** ** Agent and stage counts *)





(** C10. Presence alone decides which field is read: when [stages] is a key
    of the document and holds a scalar, the stage count is 0 and no
    [excessive_pipeline] finding is reported, whatever [pipeline] and
    [phases] hold. *)
Theorem stages_presence_shadows items a :
  dict_lookup items "stages" = Some (Atom a) ->
  count_stages (Dict items) = Return 0%nat /\
  exists findings,
    validate (Dict items) = Return findings /\
    ~ exists f, In f findings /\ f_pattern f = "excessive_pipeline".
Proof.
  intros Hst.
  assert (H0 : field_count items stage_fields = 0%nat).
  { unfold field_count, stage_fields, first_present. now rewrite Hst. }
  split; [now rewrite count_stages_dict, H0|].
  eexists. split; [apply validate_dict|].
  intros (f & Hin & Hf).
  apply (registry_finding_inv items "excessive_pipeline"
           (pattern_of "excessive_pipeline")) in Hin;
    [|now do 4 right; left|exact Hf].
  unfold step_findings in Hin. cbn [String.eqb Ascii.eqb Bool.eqb] in Hin.
  rewrite H0 in Hin. destruct Hin.
Qed.

Lemma stages_presence_shadows_witness :
  dict_lookup shadowed_items "stages" = Some (Atom (AStr "five")) /\
  dict_lookup shadowed_items "pipeline"
    = Some (List [s_ "s1"; s_ "s2"; s_ "s3"; s_ "s4"; s_ "s5"]) /\
  count_stages (Dict shadowed_items) = Return 0%nat /\
  exists findings,
    validate (Dict shadowed_items) = Return findings /\
    ~ exists f, In f findings /\ f_pattern f = "excessive_pipeline".
Proof.
  split; [reflexivity | split; [reflexivity|]].
  apply (stages_presence_shadows shadowed_items (AStr "five")). reflexivity.
Defined.

(** ** Documents that are not mappings *)

(** The loop turns that only look at the text never raise. *)
Lemma validate_loop_keywords_only arch text patterns :
  forallb (fun e => negb (fst e =? "excessive_pipeline")%string) patterns = true ->
  forall findings,
    exists findings', validate_loop arch text patterns findings = Return findings'.
Proof.
  induction patterns as [|[name p] patterns IH]; intros H findings; simpl.
  - now exists findings.
  - simpl in H. apply andb_true_iff in H as [Hn H].
    apply negb_true_iff in Hn. rewrite Hn. now apply IH.
Qed.

(** C9. [validate] needs a mapping.  On any other parsed value (a list,
    None, a string, a number) the four keyword turns that come first in the
    registry pass, then [count_stages] raises AttributeError, which nothing
    catches: [validate] returns no findings and [main] ends with that
    exception having printed nothing.  A JSON file holding an empty array
    and an empty YAML file are two such inputs. *)
Theorem non_mapping_crashes :
  (forall arch,
     (forall items, arch <> Dict items) ->
     (exists findings,
        validate_loop arch (flatten_to_text arch 0)
          (firstn 4 DYSFUNCTION_PATTERNS) [] = Return findings) /\
     (exists entry,
        nth_error DYSFUNCTION_PATTERNS 4 = Some entry /\
        fst entry = "excessive_pipeline") /\
     count_stages arch = Raise AttributeError /\
     validate arch = Raise AttributeError /\
     forall E argv,
       loads E argv arch ->
       main E argv = ([], Raise AttributeError) /\
       exit_status (main E argv) = 1%Z) /\
  loads (sample_env true) [prog; "list.json"] (List []) /\
  main (sample_env true) [prog; "list.json"] = ([], Raise AttributeError) /\
  loads (sample_env true) [prog; "empty.yaml"] (Atom ANone) /\
  main (sample_env true) [prog; "empty.yaml"] = ([], Raise AttributeError).
Proof.
  split.
  - intros arch Hnd. split; [|split; [|split; [|split]]].
    + now apply validate_loop_keywords_only.
    + eexists. split; reflexivity.
    + now apply count_stages_not_dict.
    + now apply validate_not_dict.
    + intros E argv Hl.
      rewrite (main_validate_raises _ _ _ _ Hl (validate_not_dict _ Hnd)).
      now split.
  - unfold loads. repeat split; solve [reflexivity | simpl; lia].
Qed.

Lemma non_mapping_crashes_witness :
  (forall items, List [s_ "reviewer"] <> Dict items) /\
  count_stages (List [s_ "reviewer"]) = Raise AttributeError /\
  validate (List [s_ "reviewer"]) = Raise AttributeError.
Proof.
  assert (Hnd : forall items, List [s_ "reviewer"] <> Dict items)
    by discriminate.
  split; [exact Hnd|].
  destruct (proj1 non_mapping_crashes _ Hnd) as (_ & _ & Hc & Hv & _).
  now split.
Defined.

(** ** The order of the findings *)

Lemma subseq_app {A} (l1 l2 m1 m2 : list A) :
  subseq l1 m1 -> subseq l2 m2 -> subseq (l1 ++ l2) (m1 ++ m2).
Proof.
  intros H1 H2. induction H1; simpl; [exact H2 | |]; constructor; assumption.
Qed.

Lemma subseq_nil_l {A} (m : list A) : subseq [] m.
Proof. induction m; constructor; auto. Qed.

Ltac subseq_solve :=
  simpl; repeat first [apply subseq_nil | apply subseq_take | apply subseq_skip].

Lemma step_findings_subseq items text entry :
  subseq (map f_pattern (step_findings items text entry)) [fst entry].
Proof.
  destruct entry as [name p]. unfold step_findings.
  destruct (name =? "excessive_pipeline")%string.
  - destruct (4 <? _)%nat; subseq_solve.
  - destruct (check_keywords text (keywords p)); subseq_solve.
Qed.

Lemma loop_findings_subseq items text patterns :
  subseq (map f_pattern (flat_map (step_findings items text) patterns))
         (map fst patterns).
Proof.
  induction patterns as [|entry patterns IH]; simpl; [constructor|].
  rewrite map_app.
  apply (subseq_app _ _ [fst entry] _ (step_findings_subseq _ _ _) IH).
Qed.

(** C4, as the code has it.  The findings come in the registry's order
    (review_chain, escalation_hierarchy, confidence_scoring,
    consensus_protocol, excessive_pipeline, agent_evaluates_agent), so the
    stage-count finding stands at the registry position of its placeholder,
    before the agent_evaluates_agent keyword finding; then excessive_agents,
    missing_contracts and missing_test_gates.  No name occurs twice in that
    order, so it fixes the position of every finding relative to the
    others. *)
Theorem findings_in_registry_order items :
  report_order =
    ["review_chain"; "escalation_hierarchy"; "confidence_scoring";
     "consensus_protocol"; "excessive_pipeline"; "agent_evaluates_agent";
     "excessive_agents"; "missing_contracts"; "missing_test_gates"] /\
  NoDup report_order /\
  exists findings,
    validate (Dict items) = Return findings /\
    subseq (map f_pattern findings) report_order.
Proof.
  split; [reflexivity|]. split.
  { repeat (constructor; [simpl; intuition discriminate|]). constructor. }
  eexists. split; [apply validate_dict|].
  set (text := flatten_to_text (Dict items) 0).
  unfold report_order. rewrite map_app.
  apply subseq_app; [apply loop_findings_subseq|].
  unfold agents_part, contracts_part, tests_part.
  destruct (7 <? _)%nat, (any_in contract_terms text), (any_in test_terms text);
    subseq_solve.
Qed.

(** Five stages and the keyword [feedback_loop]: the stage-count finding
    comes first, the keyword finding second. *)
Lemma stage_finding_before_keyword_finding :
  exists findings,
    validate (Dict late_keyword_items) = Return findings /\
    map f_pattern findings = ["excessive_pipeline"; "agent_evaluates_agent"] /\
    ~ keyword_findings_first findings.
Proof.
  exists (flat_map (step_findings late_keyword_items
                      (flatten_to_text (Dict late_keyword_items) 0))
            DYSFUNCTION_PATTERNS).
  split; [vm_compute; reflexivity|]. split; [vm_compute; reflexivity|].
  intros H. specialize (H 0%nat 1%nat). vm_compute in H.
  specialize (H _ _ (Nat.lt_0_succ 0) eq_refl eq_refl).
  vm_compute in H. lia.
Qed.

(** ** Parse failures *)




(** ** The exit status *)

Lemma load_architecture_raise_status E filepath out e :
  load_architecture E filepath = (out, Raise e) ->
  exit_status (A := unit) (out, Raise e) = 1%Z.
Proof.
  destruct (fs E filepath) as [[content|]|] eqn:Hfs.
  - rewrite (load_architecture_file _ _ _ Hfs). unfold of_yaml, of_json.
    destruct (is_yaml filepath), (is_json filepath), (HAS_YAML E),
      (json_loads E content), (yaml_safe_load E content);
      intros H; inversion H; reflexivity.
  - rewrite (load_architecture_directory _ _ Hfs).
    intros H; inversion H; reflexivity.
  - unfold load_architecture, read_text. rewrite Hfs. cbn.
    intros H; inversion H; reflexivity.
Qed.

Lemma failed_before_validation_status E argv :
  failed_before_validation E argv -> exit_status (main E argv) = 1%Z.
Proof.
  intros [H|[[H Hex]|(H & Hex & e & Hl)]].
  - now rewrite main_usage.
  - now rewrite main_missing.
  - destruct (load_architecture E (nth 1 argv "")) as [out r] eqn:Hload.
    simpl in Hl; subst r.
    rewrite (main_load_raises _ _ _ _ H Hex Hload).
    exact (load_architecture_raise_status _ _ _ _ Hload).
Qed.


(** Every run is of one of three kinds. *)
Lemma main_cases E argv :
  failed_before_validation E argv \/
  validated_non_mapping E argv \/
  exists findings, produced E argv findings /\ main E argv = verdict findings.
Proof.
  destruct (Nat.ltb_spec (length argv) 2) as [H|H]; [left; left; exact H|].
  destruct (path_exists E (nth 1 argv "")) eqn:Hex;
    [|left; right; left; now split].
  destruct (load_architecture E (nth 1 argv "")) as [out [arch|e]] eqn:Hload.
  - assert (Hl : loads E argv arch).
    { unfold loads. now rewrite Hload. }
    right. destruct arch as [a|l|items].
    + left. exists (Atom a). split; [exact Hl | discriminate].
    + left. exists (List l). split; [exact Hl | discriminate].
    + right. eexists. split.
      * exists (Dict items). split; [exact Hl | apply validate_dict].
      * apply (main_validated _ _ _ _ Hl). apply validate_dict.
  - left. right. right. repeat split; try assumption.
    exists e. now rewrite Hload.
Qed.




(** * Further properties of the code *)

(** ** More on strings *)

Lemma string_app_assoc (a b c : string) :
  ((a ++ b) ++ c)%string = (a ++ b ++ c)%string.
Proof. induction a as [|x a IH]; simpl; [reflexivity | now rewrite IH]. Qed.

Lemma string_app_nil_r (a : string) : (a ++ "")%string = a.
Proof. induction a as [|x a IH]; simpl; [reflexivity | now rewrite IH]. Qed.

Lemma substring_of_refl s : substring_of s s.
Proof. exists "", "". simpl. now rewrite string_app_nil_r. Qed.

Lemma substring_of_trans a b c :
  substring_of a b -> substring_of b c -> substring_of a c.
Proof.
  intros (p1 & q1 & ->) (p2 & q2 & ->).
  exists (p2 ++ p1)%string, (q1 ++ q2)%string.
  now rewrite !string_app_assoc.
Qed.



Lemma lower_char_idem c : Py.lower_char (Py.lower_char c) = Py.lower_char c.
Proof. destruct c as [[] [] [] [] [] [] [] []]; reflexivity. Qed.

Lemma lower_idem s : Py.lower (Py.lower s) = Py.lower s.
Proof.
  induction s as [|c s IH]; simpl; [reflexivity|].
  now rewrite lower_char_idem, IH.
Qed.

Lemma join_cons sep x parts :
  Py.join sep (x :: parts) =
  match parts with
  | [] => x
  | _ :: _ => (x ++ sep ++ Py.join sep parts)%string
  end.
Proof. destruct parts; reflexivity. Qed.

Lemma join_In sep parts s : In s parts -> substring_of s (Py.join sep parts).
Proof.
  induction parts as [|x parts IH]; intros Hin; [destruct Hin|].
  rewrite join_cons. destruct Hin as [->|Hin].
  - destruct parts; [apply substring_of_refl|]. now exists "", (sep ++ Py.join sep (s0 :: parts))%string.
  - destruct parts as [|y parts]; [destruct Hin|].
    apply (substring_of_trans _ _ _ (IH Hin)).
    exists (x ++ sep)%string, "".
    now rewrite string_app_nil_r, string_app_assoc.
Qed.



(** ** More on the findings of a mapping *)

Lemma validate_findings_of items :
  validate (Dict items) = Return (findings_of items).
Proof. apply validate_dict. Qed.

Lemma findings_of_In items f :
  let text := flatten_to_text (Dict items) 0 in
  In f (findings_of items) <->
  (exists entry, In entry DYSFUNCTION_PATTERNS
                 /\ In f (step_findings items text entry))
  \/ In f (agents_part items)
  \/ In f (contracts_part text)
  \/ In f (tests_part text).
Proof.
  intros text. unfold findings_of. fold text.
  rewrite !in_app_iff, in_flat_map. reflexivity.
Qed.

Lemma agents_part_In items f :
  In f (agents_part items) <->
  (7 < field_count items agent_fields)%nat
  /\ f = agents_finding (field_count items agent_fields).
Proof.
  unfold agents_part.
  destruct (Nat.ltb_spec 7 (field_count items agent_fields)); simpl.
  - split; [intros [<-|[]]; now split | intros [_ ->]; now left].
  - split; [contradiction | intros [H' _]; lia].
Qed.

Lemma contracts_part_In text f :
  In f (contracts_part text) <->
  any_in contract_terms text = false /\ f = contracts_finding.
Proof.
  unfold contracts_part. destruct (any_in contract_terms text); simpl.
  - split; [contradiction | intros [H _]; discriminate].
  - split; [intros [<-|[]]; now split | intros [_ ->]; now left].
Qed.

Lemma tests_part_In text f :
  In f (tests_part text) <->
  any_in test_terms text = false /\ f = tests_finding.
Proof.
  unfold tests_part. destruct (any_in test_terms text); simpl.
  - split; [contradiction | intros [H _]; discriminate].
  - split; [intros [<-|[]]; now split | intros [_ ->]; now left].
Qed.

Lemma step_findings_In items text name p f :
  In f (step_findings items text (name, p)) <->
  ((name =? "excessive_pipeline")%string = true
   /\ (4 < field_count items stage_fields)%nat
   /\ f = stage_finding name p (field_count items stage_fields))
  \/ ((name =? "excessive_pipeline")%string = false
      /\ check_keywords text (keywords p) <> []
      /\ f = keyword_finding name p (check_keywords text (keywords p))).
Proof.
  unfold step_findings. destruct (name =? "excessive_pipeline")%string.
  - destruct (Nat.ltb_spec 4 (field_count items stage_fields)); simpl.
    + split.
      * intros [<-|[]]. left. now repeat split.
      * intros [(_ & _ & ->)|(H' & _)]; [now left | discriminate].
    + split; [contradiction|].
      intros [(_ & H' & _)|(H' & _)]; [lia | discriminate].
  - destruct (check_keywords text (keywords p)) as [|kw l]; simpl.
    + split; [contradiction|].
      intros [(H' & _)|(_ & H' & _)]; [discriminate | now destruct H'].
    + split.
      * intros [<-|[]]. right. repeat split. discriminate.
      * intros [(H' & _)|(_ & _ & ->)]; [discriminate | now left].
Qed.

(** A finding under one of the three trailing names is the trailing
    finding of that name. *)
Lemma trailing_finding_inv items f :
  let text := flatten_to_text (Dict items) 0 in
  In f (findings_of items) ->
  (f_pattern f = "excessive_agents" -> In f (agents_part items)) /\
  (f_pattern f = "missing_contracts" -> In f (contracts_part text)) /\
  (f_pattern f = "missing_test_gates" -> In f (tests_part text)).
Proof.
  intros text Hin. apply findings_of_In in Hin. fold text in Hin.
  destruct Hin as [(entry & Hreg & Hin)|[Hin|[Hin|Hin]]].
  - apply step_findings_pattern in Hin. destruct entry as [name p].
    simpl in Hin. destruct (registry_names _ _ Hreg) as (H1 & H2 & H3).
    rewrite Hin. repeat split; intros H; contradiction.
  - assert (Hf := proj2 (proj1 (agents_part_In _ _) Hin)). subst f.
    repeat split; intros H; first [exact Hin | discriminate H].
  - assert (Hf := proj2 (proj1 (contracts_part_In _ _) Hin)). subst f.
    repeat split; intros H; first [exact Hin | discriminate H].
  - assert (Hf := proj2 (proj1 (tests_part_In _ _) Hin)). subst f.
    repeat split; intros H; first [exact Hin | discriminate H].
Qed.


(** ** The stage-count boundary *)



(** ** The two presence checks *)


(** X3. The presence checks match substrings, so their terms overlap: the
    contract term [componentcontract] never changes the outcome, since the
    term [contract] is inside it, and a text that names [contract_test]
    passes both checks at once.  A mapping whose text holds
    [contract_test] in any letter case gets neither presence finding. *)
Theorem indicator_terms_overlap :
  (forall text,
     any_in contract_terms text
     = any_in ["contract"; "interface_spec"; "typed_interface"] text) /\
  (forall items,
     substring_of "contract_test"
       (Py.lower (flatten_to_text (Dict items) 0)) ->
     exists findings,
       validate (Dict items) = Return findings /\
       ~ reported "missing_contracts" findings /\
       ~ reported "missing_test_gates" findings).
Proof.
  assert (Hsub : forall a b t,
             substring_of a b -> Py.str_in b t = true -> Py.str_in a t = true).
  { intros a b t Hab Hb. apply str_in_iff.
    apply (substring_of_trans _ b); [exact Hab | now apply str_in_iff]. }
  split.
  - intros text. unfold any_in, contract_terms. cbn [existsb].
    destruct (Py.str_in "componentcontract" (Py.lower text)) eqn:Hc.
    + assert (Hin : substring_of "contract" "componentcontract")
        by (apply str_in_iff; reflexivity).
      rewrite (Hsub _ _ _ Hin Hc). reflexivity.
    + now rewrite !orb_false_r.
  - intros items Hct. exists (findings_of items).
    split; [apply validate_findings_of|].
    set (text := flatten_to_text (Dict items) 0) in *.
    assert (Hc : any_in contract_terms text = true).
    { apply any_in_iff. exists "contract". split; [now left|].
      apply (substring_of_trans _ "contract_test"); [|exact Hct].
      now apply str_in_iff. }
    assert (Ht : any_in test_terms text = true).
    { apply any_in_iff. exists "contract_test". split; [|exact Hct].
      right. now left. }
    split; intros (f & Hin & Hf);
      destruct (trailing_finding_inv items f Hin) as (_ & H1 & H2).
    + apply H1, contracts_part_In in Hf. fold text in Hf. destruct Hf. congruence.
    + apply H2, tests_part_In in Hf. fold text in Hf. destruct Hf. congruence.
Qed.

Lemma indicator_terms_overlap_witness :
  substring_of "contract_test"
    (Py.lower (flatten_to_text (Dict notes_items) 0)) /\
  exists findings,
    validate (Dict notes_items) = Return findings /\
    ~ reported "missing_contracts" findings /\
    ~ reported "missing_test_gates" findings.
Proof.
  assert (H : substring_of "contract_test"
                (Py.lower (flatten_to_text (Dict notes_items) 0)))
    by (apply str_in_iff; reflexivity).
  split; [exact H|].
  exact (proj2 indicator_terms_overlap notes_items H).
Defined.

(** ** What decides the exit status of a mapping *)

Lemma registry_severity name p :
  In (name, p) DYSFUNCTION_PATTERNS ->
  severity p = "HIGH" \/ severity p = "MEDIUM".
Proof. intros H. registry_cases H; simpl; auto. Qed.




(** ** Shape of the findings list *)

Lemma subseq_In {A} (l m : list A) x : subseq l m -> In x l -> In x m.
Proof.
  induction 1 as [|y l m _ IH|y l m _ IH]; simpl; intros Hin;
    [exact Hin | right; auto | destruct Hin; auto].
Qed.

Lemma subseq_NoDup {A} (l m : list A) : subseq l m -> NoDup m -> NoDup l.
Proof.
  induction 1 as [|y l m Hs IH|y l m Hs IH]; intros Hm.
  - exact Hm.
  - inversion Hm; auto.
  - inversion Hm as [|? ? Hnin Hm']; subst. constructor; [|auto].
    intros Hin. apply Hnin. now apply (subseq_In l m).
Qed.

Lemma subseq_length {A} (l m : list A) :
  subseq l m -> (length l <= length m)%nat.
Proof. induction 1; simpl; lia. Qed.

Lemma findings_of_subseq items :
  subseq (map f_pattern (findings_of items)) report_order.
Proof.
  unfold findings_of, report_order.
  set (text := flatten_to_text (Dict items) 0).
  rewrite map_app. apply subseq_app; [apply loop_findings_subseq|].
  unfold agents_part, contracts_part, tests_part.
  destruct (7 <? _)%nat, (any_in contract_terms text), (any_in test_terms text);
    subseq_solve.
Qed.

(** X5. The findings of a mapping are at most nine, no two of them under the
    same pattern name; every severity is HIGH or MEDIUM; and a finding under
    a registry name carries that entry's severity, description and fix
    unchanged. *)
Theorem findings_shape items :
  exists findings,
    validate (Dict items) = Return findings /\
    (length findings <= 9)%nat /\
    NoDup (map f_pattern findings) /\
    (forall f, In f findings ->
       (f_severity f = "HIGH" \/ f_severity f = "MEDIUM") /\
       (forall p, In (f_pattern f, p) DYSFUNCTION_PATTERNS ->
          f_severity f = severity p /\ f_description f = description p
          /\ f_fix f = fix_ p)).
Proof.
  exists (findings_of items). split; [apply validate_findings_of|].
  assert (Hs := findings_of_subseq items).
  split; [|split].
  - apply subseq_length in Hs. now rewrite length_map in Hs.
  - apply (subseq_NoDup _ _ Hs).
    repeat (constructor; [simpl; intuition discriminate|]). constructor.
  - intros f Hin. apply findings_of_In in Hin.
    set (text := flatten_to_text (Dict items) 0) in Hin.
    destruct Hin as [([name q] & Hreg & Hin)|[Hin|[Hin|Hin]]].
    + assert (Hf : f_severity f = severity q /\ f_description f = description q
                   /\ f_fix f = fix_ q /\ f_pattern f = name).
      { apply step_findings_In in Hin as [(_ & _ & ->)|(_ & _ & ->)];
          now repeat split. }
      destruct Hf as (Hsev & Hd & Hfix & Hn). split.
      * rewrite Hsev. apply (registry_severity _ _ Hreg).
      * intros p Hp. rewrite Hn in Hp.
        now rewrite (registry_functional _ _ _ Hp Hreg).
    + apply agents_part_In in Hin as [_ ->]. split; [now right|].
      intros p Hp. now destruct (registry_names _ _ Hp) as (H & _).
    + apply contracts_part_In in Hin as [_ ->]. split; [now left|].
      intros p Hp. now destruct (registry_names _ _ Hp) as (_ & H & _).
    + apply tests_part_In in Hin as [_ ->]. split; [now left|].
      intros p Hp. now destruct (registry_names _ _ Hp) as (_ & _ & H).
Qed.

(** ** What the cap hides from the whole validation *)

Lemma dict_lookup_same n d d' key :
  Forall2 (fun kv kv' => fst kv = fst kv' /\ same_upto n (snd kv) (snd kv'))
          d d' ->
  match dict_lookup d key, dict_lookup d' key with
  | Some v, Some w => same_upto n v w
  | None, None => True
  | _, _ => False
  end.
Proof.
  induction 1 as [|[k v] [k' w] d d' [Hk Hv] _ IH]; simpl; [exact I|].
  simpl in Hk, Hv. subst k'.
  destruct k; try exact IH. destruct (s =? key)%string; [exact Hv | exact IH].
Qed.

Lemma size_of_same n v w : same_upto (S n) v w -> size_of v = size_of w.
Proof.
  destruct v as [a|l|d], w as [b|l'|d']; simpl; try contradiction;
    [reflexivity | |]; intros H; now apply Forall2_length in H.
Qed.

Lemma field_count_same n d d' fields :
  Forall2 (fun kv kv' => fst kv = fst kv' /\ same_upto (S n) (snd kv) (snd kv'))
          d d' ->
  field_count d fields = field_count d' fields.
Proof.
  intros H. unfold field_count.
  assert (Hfp : match first_present d fields, first_present d' fields with
                | Some v, Some w => same_upto (S n) v w
                | None, None => True
                | _, _ => False
                end).
  { induction fields as [|f fields IH]; simpl; [exact I|].
    assert (Hl := dict_lookup_same (S n) d d' f H).
    destruct (dict_lookup d f), (dict_lookup d' f); try contradiction;
      [exact Hl | exact IH]. }
  destruct (first_present d fields), (first_present d' fields);
    try contradiction; [|reflexivity].
  now apply (size_of_same n).
Qed.

(** X6. [validate] cannot see below the cap: two mappings that are the same
    down to ten levels under the top, whatever they hold deeper, get the
    same findings.  A keyword buried deeper than that is never reported. *)
Theorem validate_blind_below_cap items items' :
  same_upto 11 (Dict items) (Dict items') ->
  validate (Dict items) = validate (Dict items').
Proof.
  intros H. rewrite !validate_findings_of. f_equal. unfold findings_of.
  assert (Ht : flatten_to_text (Dict items) 0 = flatten_to_text (Dict items') 0).
  { rewrite !(flatten_to_text_levels 11 _ 0%Z eq_refl).
    now apply flatten_levels_same. }
  rewrite <- Ht. set (text := flatten_to_text (Dict items) 0).
  simpl in H.
  assert (Hs := field_count_same 9 _ _ stage_fields H).
  assert (Ha := field_count_same 9 _ _ agent_fields H).
  unfold agents_part. rewrite <- Ha. f_equal.
  apply flat_map_ext. intros [name p]. unfold step_findings.
  now rewrite <- Hs.
Qed.

Lemma validate_blind_below_cap_witness :
  same_upto 11 (Dict [(AStr "top", nest 10 (s_ "reviewer"))])
               (Dict [(AStr "top", nest 10 (s_ "harmless"))]) /\
  validate (Dict [(AStr "top", nest 10 (s_ "reviewer"))])
  = validate (Dict [(AStr "top", nest 10 (s_ "harmless"))]) /\
  validate (Dict [(AStr "top", nest 9 (s_ "reviewer"))])
  <> validate (Dict [(AStr "top", nest 9 (s_ "harmless"))]).
Proof.
  assert (H : same_upto 11 (Dict [(AStr "top", nest 10 (s_ "reviewer"))])
                           (Dict [(AStr "top", nest 10 (s_ "harmless"))])).
  { simpl. repeat (constructor; simpl; auto). }
  split; [exact H | split].
  - exact (validate_blind_below_cap _ _ H).
  - vm_compute. discriminate.
Defined.

(** ** What the flattened text always holds *)

Lemma occurs_within_levels n :
  forall v s, occurs_within n v s -> substring_of s (flatten_levels n v).
Proof.
  induction n as [|n IH]; intros v s H; inversion H; subst; simpl.
  - apply substring_of_refl.
  - apply (substring_of_trans _ (flatten_levels n x)); [now apply IH|].
    apply join_In. now apply in_map.
  - apply join_In. apply in_flat_map. exists (k, x). split; [assumption|].
    now left.
  - apply (substring_of_trans _ (flatten_levels n x)); [now apply IH|].
    apply join_In. apply in_flat_map. exists (k, x). split; [assumption|].
    right. now left.
Qed.

(** X7. Within the cap nothing is lost: the string form of every scalar and
    of every mapping key that sits within [11 - depth] levels of nesting is
    a substring of the flattened text, so field names are searched for
    keywords just as values are. *)
Theorem flatten_to_text_complete obj depth s :
  occurs_within (Z.to_nat (11 - depth)) obj s ->
  substring_of s (flatten_to_text obj depth).
Proof.
  intros H. rewrite (flatten_to_text_levels _ obj depth eq_refl).
  now apply occurs_within_levels.
Qed.

Lemma flatten_to_text_complete_witness :
  occurs_within (Z.to_nat (11 - 0)) (Dict review_items) "roles" /\
  occurs_within (Z.to_nat (11 - 0)) (Dict review_items) "reviewer" /\
  substring_of "roles" (flatten_to_text (Dict review_items) 0) /\
  substring_of "reviewer" (flatten_to_text (Dict review_items) 0).
Proof.
  assert (H1 : occurs_within (Z.to_nat (11 - 0)) (Dict review_items) "roles").
  { apply (within_key 10 review_items (AStr "roles")
             (List [s_ "reviewer"; s_ "implementer"])). now left. }
  assert (H2 : occurs_within (Z.to_nat (11 - 0)) (Dict review_items) "reviewer").
  { apply (within_value 10 review_items (AStr "roles")
             (List [s_ "reviewer"; s_ "implementer"])); [now left|].
    apply (within_elem 9 _ (s_ "reviewer")); [now left|].
    apply (within_atom 8 (AStr "reviewer")). }
  repeat split; try assumption.
  - exact (flatten_to_text_complete _ _ _ H1).
  - exact (flatten_to_text_complete _ _ _ H2).
Defined.



(** ** The keyword check on its own *)



Lemma filter_subseq {A} (f : A -> bool) (l : list A) : subseq (filter f l) l.
Proof.
  induction l as [|x l IH]; simpl; [constructor|].
  destruct (f x); constructor; exact IH.
Qed.

(** X10. [check_keywords] returns keywords of the list it is given, in the
    order of that list and none of its own; the letter case of the text
    does not matter; and an empty keyword matches every text, the empty one
    included. *)
Theorem check_keywords_selects text kws :
  subseq (check_keywords text kws) kws /\
  check_keywords (Py.lower text) kws = check_keywords text kws /\
  (forall text', Py.lower text' = Py.lower text ->
     check_keywords text' kws = check_keywords text kws) /\
  (In "" kws -> In "" (check_keywords text kws)).
Proof.
  split; [apply filter_subseq | split; [|split]].
  - unfold check_keywords. now rewrite lower_idem.
  - intros text' H. unfold check_keywords. now rewrite H.
  - intros H. apply check_keywords_In. split; [exact H|].
    exists "". split; [|reflexivity]. now exists "", text.
Qed.

Lemma check_keywords_selects_witness :
  In "" ["vote"; ""] /\
  In "" (check_keywords "" ["vote"; ""]) /\
  check_keywords "DEBATE, then Vote" ["vote"; "consensus"; "debate"]
  = ["vote"; "debate"].
Proof.
  assert (H : In "" ["vote"; ""]) by (right; now left).
  split; [exact H | split; [|reflexivity]].
  exact (proj2 (proj2 (proj2 (check_keywords_selects "" ["vote"; ""]))) H).
Defined.

(** ** The loader's dispatch *)








(** ** The command line *)

(** X14. Only [sys.argv[1]] is read: the program name and any argument
    after the file path change nothing in the run. *)
Theorem extra_arguments_ignored E name name' filepath rest :
  main E (name :: filepath :: rest) = main E [name'; filepath].
Proof. reflexivity. Qed.

(** X15. The two early errors.  With no file argument, even with an empty
    [sys.argv], the run prints the two usage lines and exits with status 1
    without looking at the file system; with a path that does not exist it
    prints [ERROR: File not found: ] followed by the path as given and exits
    with status 1, whatever the suffix and whether or not YAML is
    available. *)
Theorem early_errors E argv :
  ((length argv < 2)%nat ->
   main E argv = ([usage_line; usage_blurb], Raise (SystemExit 1))) /\
  ((2 <= length argv)%nat -> fs E (nth 1 argv "") = None ->
   main E argv =
   ([("ERROR: File not found: " ++ nth 1 argv "")%string],
    Raise (SystemExit 1))).
Proof.
  split.
  - apply main_usage.
  - intros Hlen Hfs. apply main_missing; [exact Hlen|].
    unfold path_exists. now rewrite Hfs.
Qed.

Lemma early_errors_witness :
  (length (@nil string) < 2)%nat /\
  main (sample_env true) [] = ([usage_line; usage_blurb], Raise (SystemExit 1)) /\
  (2 <= length [prog; "absent.yaml"])%nat /\
  fs (sample_env false) "absent.yaml" = None /\
  main (sample_env false) [prog; "absent.yaml"] =
  (["ERROR: File not found: absent.yaml"], Raise (SystemExit 1)).
Proof.
  assert (H0 : (length (@nil string) < 2)%nat) by (simpl; lia).
  assert (H2 : (2 <= length [prog; "absent.yaml"])%nat) by (simpl; lia).
  split; [exact H0 | split].
  - exact (proj1 (early_errors (sample_env true) []) H0).
  - split; [exact H2 | split; [reflexivity|]].
    exact (proj2 (early_errors (sample_env false) [prog; "absent.yaml"])
             H2 eq_refl).
Defined.

(** X16. A path that exists but cannot be read as a file, a directory,
    passes the existence test and then fails in [read_text]: the exception
    is not caught, nothing is printed, and the exit status is 1. *)
Theorem directory_crashes E argv :
  (2 <= length argv)%nat ->
  fs E (nth 1 argv "") = Some Directory ->
  main E argv = ([], Raise IsADirectoryError) /\
  exit_status (main E argv) = 1%Z.
Proof.
  intros Hlen Hfs.
  assert (Hm : main E argv = ([], Raise IsADirectoryError)).
  { apply main_load_raises; [exact Hlen | |].
    - unfold path_exists. now rewrite Hfs.
    - now apply load_architecture_directory. }
  now rewrite Hm.
Qed.

Lemma directory_crashes_witness :
  (2 <= length [prog; "configs"])%nat /\
  fs (sample_env true) "configs" = Some Directory /\
  main (sample_env true) [prog; "configs"] = ([], Raise IsADirectoryError).
Proof.
  assert (H2 : (2 <= length [prog; "configs"])%nat) by (simpl; lia).
  split; [exact H2 | split; [reflexivity|]].
  exact (proj1 (directory_crashes (sample_env true) [prog; "configs"]
                  H2 eq_refl)).
Defined.

(** X17. [main] never returns: every run ends in [sys.exit] or in an
    uncaught exception, and the exit status is 0 or 1.  Status 0 is only
    reached through [sys.exit(0)], with the second PASS line or the WARN
    line as the last line printed. *)
Theorem main_always_exits E argv :
  (exists e, snd (main E argv) = Raise e) /\
  (exit_status (main E argv) = 0%Z \/ exit_status (main E argv) = 1%Z) /\
  (exit_status (main E argv) = 0%Z ->
   snd (main E argv) = Raise (SystemExit 0) /\
   (last (stdout (main E argv)) "" = pass_blurb
    \/ last (stdout (main E argv)) "" = warn_line)).
Proof.
  destruct (main_cases E argv) as [Hf|[(arch & Hl & Hnd)|(findings & _ & Hm)]].
  - assert (H1 := failed_before_validation_status _ _ Hf).
    split; [|split; [now right | intros H0; congruence]].
    unfold exit_status in H1. destruct (snd (main E argv)) as [u|e];
      [discriminate H1 | now exists e].
  - rewrite (main_validate_raises _ _ _ _ Hl (validate_not_dict _ Hnd)).
    split; [now eexists | split; [now right | discriminate]].
  - rewrite Hm. unfold verdict. destruct findings as [|f rest].
    + split; [now eexists | split; [now left|]]. intros _. split; auto.
    + destruct (0 <? high_count (f :: rest))%nat.
      * split; [now eexists | split; [now right | discriminate]].
      * split; [now eexists | split; [now left|]]. intros _.
        split; [reflexivity | right].
        unfold stdout, fst.
        change (findings_line (length (f :: rest))
                  :: report_lines 1 (f :: rest) ++ [warn_line])
          with ((findings_line (length (f :: rest))
                   :: report_lines 1 (f :: rest)) ++ [warn_line]).
        apply last_last.
Qed.

Lemma main_always_exits_witness :
  exit_status (main (sample_env true) [prog; "clean.yaml"]) = 0%Z /\
  snd (main (sample_env true) [prog; "clean.yaml"]) = Raise (SystemExit 0).
Proof.
  assert (H0 : exit_status (main (sample_env true) [prog; "clean.yaml"]) = 0%Z)
    by (vm_compute; reflexivity).
  split; [exact H0|].
  exact (proj1 (proj2 (proj2 (main_always_exits _ _)) H0)).
Defined.

(** ** The report *)






(** ** Adding fields to a document *)





(** ** Runs that exit with status 0 *)


